(** * A shallow embedding of the e-love chat-service back end

    The services [ConversationsService] and [MessagesService], the message
    REST endpoints and the conversation WebSocket loop, over an explicit
    model of the relational store.  Python exceptions are values of [exc];
    each service call is a function of the committed store returning a
    [result] and the new store (a state-and-exception monad [M]).  Every
    write of the services is followed at once by [commit], so the store
    only holds committed rows and [rollback] restores exactly it. *)

From Stdlib Require Import String Ascii List ZArith Bool Lia.
Import ListNotations.
Open Scope string_scope.

(** ** Data model (core/db/models/chat) *)

(** A value of [uuid.UUID], given by its 128-bit integer. *)
Definition uuid := N.

(** [class MessageStatus(PyEnum)]: the member [DELIVERED] carries the
    value ["DELIVIRED"]. *)
Inductive MessageStatus := SENT | DELIVERED | READ.

Definition MessageStatus_value (s : MessageStatus) : string :=
  match s with
  | SENT => "SENT"
  | DELIVERED => "DELIVIRED"
  | READ => "READ"
  end.

(** [MessageStatus(v)]: an [Enum] call looks members up by value, not by
    name; [None] stands for the [ValueError] it raises. *)
Definition MessageStatus_of_value (v : string) : option MessageStatus :=
  find (fun s => String.eqb (MessageStatus_value s) v) [SENT; DELIVERED; READ].

(** Modelled from the spec: [BaseModel] (core/db/models/base.py, not in the
    sources) gives each row an opaque identity and a creation timestamp;
    here [c_id]/[m_id] and [c_created_at]/[m_created_at]. *)
Record Conversations := mkConversations {
  c_id : string;
  user_first_id : string;
  user_second_id : string;
  is_deleted : bool;
  deleted_at : option Z;
  c_created_at : Z
}.

(** The model class is named [Messages] in message.py; the services import
    it as [Message]. *)
Record Message := mkMessage {
  m_id : string;
  conversation_id : string;
  sender_id : uuid;
  content : string;
  status : MessageStatus;
  m_created_at : Z
}.

(** The committed database: both tables in insertion order, the supply of
    fresh row identities and the clock read by [created_at]. *)
Record db := mkDb {
  conversations : list Conversations;
  messages : list Message;
  db_seq : nat;
  db_clock : Z
}.

(** Decimal rendering of the row sequence number, used as fresh identity. *)
Fixpoint digits_aux (fuel n : nat) (acc : string) : string :=
  match fuel with
  | O => acc
  | S f =>
      let acc' := String (ascii_of_nat (48 + Nat.modulo n 10)) acc in
      if Nat.ltb n 10 then acc' else digits_aux f (Nat.div n 10) acc'
  end.

Definition new_row_id (s : db) : string := "row-" ++ digits_aux (S (db_seq s)) (db_seq s) "".

(** ** Python exceptions and the service monad *)

Inductive exc :=
| HTTPException (status_code : Z) (detail : string)
| ValueError
| TypeError
| NameError (name : string)
| AttributeError (name : string)
| ValidationError
| IntegrityError
| MultipleResultsFound
| JSONDecodeError
| WebSocketDisconnect.

Inductive result (A : Type) :=
| Ok (a : A)
| Raise (e : exc).
Arguments Ok {A} a.
Arguments Raise {A} e.

Definition M (A : Type) := db -> result A * db.

Definition ret {A} (a : A) : M A := fun s => (Ok a, s).
Definition raise {A} (e : exc) : M A := fun s => (Raise e, s).
Definition bind {A B} (m : M A) (k : A -> M B) : M B :=
  fun s => match m s with
           | (Ok a, s') => k a s'
           | (Raise e, s') => (Raise e, s')
           end.

Notation "x <- m ;; k" := (bind m (fun x => k))
  (at level 61, m at next level, right associativity).
Notation "m ;;; k" := (bind m (fun _ => k))
  (at level 61, right associativity).

(** [try: body except ...: handler]. *)
Definition try_except {A} (body : M A) (handler : exc -> M A) : M A :=
  fun s => match body s with
           | (Ok a, s') => (Ok a, s')
           | (Raise e, s') => handler e s'
           end.

(** [await db_session.rollback()]: the store holds committed rows only. *)
Definition rollback : M unit := ret tt.

Definition is_http (e : exc) : bool :=
  match e with HTTPException _ _ => true | _ => false end.

Definition server_error {A} : M A :=
  raise (HTTPException 500 "Unexpected server error!").

(** [result.scalar_one_or_none()]. *)
Definition scalar_one_or_none {A} (rows : list A) : M (option A) :=
  match rows with
  | [] => ret None
  | [r] => ret (Some r)
  | _ => raise MultipleResultsFound
  end.

Definition select_conversations (p : Conversations -> bool) : M (list Conversations) :=
  fun s => (Ok (filter p (conversations s)), s).

Definition select_messages (p : Message -> bool) : M (list Message) :=
  fun s => (Ok (filter p (messages s)), s).

(** [session.add(new_conversation); commit(); refresh(...)]. *)
Definition insert_conversation (first second : string) : M Conversations :=
  fun s =>
    let c := mkConversations (new_row_id s) first second false None (db_clock s) in
    (Ok c, mkDb (conversations s ++ [c]) (messages s) (S (db_seq s)) (Z.succ (db_clock s))).

(** [session.add(new_message); commit(); refresh(...)]. *)
Definition insert_message (cid : string) (sender : uuid) (body : string)
    (st : MessageStatus) : M Message :=
  fun s =>
    let m := mkMessage (new_row_id s) cid sender body st (db_clock s) in
    (Ok m, mkDb (conversations s) (messages s ++ [m]) (S (db_seq s)) (Z.succ (db_clock s))).

(** [message.status = new; session.add(message); commit(); refresh(...)]. *)
Definition set_message_status (m : Message) (st : MessageStatus) : M Message :=
  fun s =>
    let m' := mkMessage (m_id m) (conversation_id m) (sender_id m) (content m) st
                        (m_created_at m) in
    (Ok m', mkDb (conversations s)
                 (map (fun x => if String.eqb (m_id x) (m_id m) then m' else x) (messages s))
                 (db_seq s) (db_clock s)).

(** Python truthiness of an optional string ([None] and [""] are false). *)
Definition truthy (o : option string) : bool :=
  match o with Some v => negb (String.eqb v "") | None => false end.

(** ** The services *)

Section Services.

(** [uuid.UUID(str(x))]: the standard-library parser of UUID strings, left
    abstract; [None] stands for the [ValueError] it raises on a malformed
    string.  Every result below holds for any such parser. *)
Variable parse_uuid : string -> option uuid.

Definition UUID (v : string) : M uuid :=
  match parse_uuid v with Some u => ret u | None => raise ValueError end.

(** *** ConversationsService (core/services/conversations) *)

(** [get_conversation_by_id]: the [except Exception] clause also catches
    the [HTTPException] raised inside the [try]. *)
Definition get_conversation_by_id (cid : string) : M Conversations :=
  try_except
    (rows <- select_conversations (fun c => String.eqb (c_id c) cid) ;;
     obj <- scalar_one_or_none rows ;;
     match obj with
     | None => raise (HTTPException 404 "Conversation not found")
     | Some c => ret c
     end)
    (fun _ => rollback ;;; server_error).

(** [create_conversation(data)] with [data.get("user_first_id")] and
    [data.get("user_second_id")]; Python's [<] on [str] is [String.ltb]. *)
Definition create_conversation (first second : option string) : M Conversations :=
  match first, second with
  | Some f, Some s =>
      if String.eqb f "" || String.eqb s "" then
        raise (HTTPException 400 "Missing user IDs")
      else if String.eqb f s then
        raise (HTTPException 400 "Cannot create conversation with the same user")
      else
        let '(f', s') := if String.ltb f s then (f, s) else (s, f) in
        try_except
          (rows <- select_conversations
                     (fun c => String.eqb (user_first_id c) f' && String.eqb (user_second_id c) s') ;;
           existing <- scalar_one_or_none rows ;;
           match existing with
           | Some c => ret c
           | None => insert_conversation f' s'
           end)
          (fun e => match e with
                    | IntegrityError =>
                        rollback ;;; raise (HTTPException 400 "Conversation already exists")
                    | _ => rollback ;;; server_error
                    end)
  | _, _ => raise (HTTPException 400 "Missing user IDs")
  end.

(** [delete_conversation]: after setting [is_deleted] on the loaded object,
    [datetime.utcnow()] names [datetime], which the module never imports. *)
Definition delete_conversation (cid : string) : M Conversations :=
  try_except
    (conversation <- get_conversation_by_id cid ;;
     let _is_deleted_set :=
       mkConversations (c_id conversation) (user_first_id conversation)
                       (user_second_id conversation) true (deleted_at conversation)
                       (c_created_at conversation) in
     raise (NameError "datetime"))
    (fun e => if is_http e then raise e else rollback ;;; server_error).

(** *** MessagesService (core/services/message) *)

Definition get_message_by_id (message_id : string) : M Message :=
  try_except
    (rows <- select_messages (fun m => String.eqb (m_id m) message_id) ;;
     message <- scalar_one_or_none rows ;;
     match message with
     | None => raise (HTTPException 404 "Message not found")
     | Some m => ret m
     end)
    (fun e => if is_http e then raise e else rollback ;;; server_error).

(** The dict passed to [create_message]; a missing key reads as [None]. *)
Record msg_data := mk_msg_data {
  d_conversation_id : option string;
  d_sender_id : option string;
  d_recipient_id : option string;
  d_content : option string
}.

Definition forbidden {A} (detail : string) : M A := raise (HTTPException 403 detail).

(** The part of [create_message] inside its second [try]. *)
Definition create_message_body (conversation_uuid : string) (sender_uuid : uuid)
    (recipient_uuid : option uuid) (body : string) : M Message :=
  rows <- select_conversations (fun c => String.eqb (c_id c) conversation_uuid) ;;
  conversation <- scalar_one_or_none rows ;;
  match conversation with
  | None => raise (HTTPException 404 "Conversation not found")
  | Some c =>
      user_first_uuid <- UUID (user_first_id c) ;;
      user_second_uuid <- UUID (user_second_id c) ;;
      let allowed_users := [user_first_uuid; user_second_uuid] in
      if negb (existsb (N.eqb sender_uuid) allowed_users) then
        forbidden "Sender not authorized in this conversation"
      else
        match recipient_uuid with
        | Some r =>
            if negb (existsb (N.eqb r) allowed_users) then
              forbidden "Recipient not authorized in this conversation"
            else insert_message conversation_uuid sender_uuid body SENT
        | None => insert_message conversation_uuid sender_uuid body SENT
        end
  end.

(** [create_message(data)]. *)
Definition create_message (data : msg_data) : M Message :=
  match d_conversation_id data, d_sender_id data, d_content data with
  | Some cid, Some sid, Some body =>
      if String.eqb cid "" || String.eqb sid "" || String.eqb body "" then
        raise (HTTPException 400 "Missing required fields")
      else
        ids <- try_except
                 (sender_uuid <- UUID sid ;;
                  recipient_uuid <-
                    (match d_recipient_id data with
                     | Some rid => if String.eqb rid "" then ret None
                                   else (r <- UUID rid ;; ret (Some r))
                     | None => ret None
                     end) ;;
                  ret (sender_uuid, recipient_uuid))
                 (fun e => match e with
                           | ValueError => raise (HTTPException 400 "Invalid UUID format")
                           | _ => raise e
                           end) ;;
        let '(sender_uuid, recipient_uuid) := ids in
        try_except
          (create_message_body cid sender_uuid recipient_uuid body)
          (fun e => if is_http e then raise e
                    else match e with
                         | IntegrityError =>
                             rollback ;;; raise (HTTPException 400 "Invalid data provided")
                         | _ => rollback ;;; server_error
                         end)
  | _, _, _ => raise (HTTPException 400 "Missing required fields")
  end.

(** [update_message(message_id, data)] with [data.get("status")]. *)
Definition update_message (message_id : string) (new_status : option string) : M Message :=
  if negb (truthy new_status) then raise (HTTPException 400 "Missing status field")
  else
    match MessageStatus_of_value (match new_status with Some v => v | None => "" end) with
    | None => raise (HTTPException 400 "Invalid status value")
    | Some new_status_enum =>
        try_except
          (message <- get_message_by_id message_id ;;
           set_message_status message new_status_enum)
          (fun e => if is_http e then raise e else rollback ;;; server_error)
    end.

Definition delete_message_row (m : Message) : M unit :=
  fun s => (Ok tt, mkDb (conversations s)
                        (filter (fun x => negb (String.eqb (m_id x) (m_id m))) (messages s))
                        (db_seq s) (db_clock s)).

Definition delete_message (message_id : string) : M unit :=
  try_except
    (message <- get_message_by_id message_id ;; delete_message_row message)
    (fun e => if is_http e then raise e else rollback ;;; server_error).

(** *** Message endpoints (api/v1/endpoints/chat/messages.py) *)

(** Values an endpoint may hand back to FastAPI. *)
Inductive pyval :=
| PyNone
| PyMessage (m : Message)
| PyMessages (ms : list Message).

(** The attributes of a [MessagesService] instance: its [db_session] and
    the methods its class defines. *)
Inductive MessagesService_attr :=
| Attr_db_session
| Attr_get_message_by_id
| Attr_create_message
| Attr_update_message
| Attr_delete_message.

Definition MessagesService_getattr (name : string) : option MessagesService_attr :=
  if String.eqb name "db_session" then Some Attr_db_session
  else if String.eqb name "get_message_by_id" then Some Attr_get_message_by_id
  else if String.eqb name "create_message" then Some Attr_create_message
  else if String.eqb name "update_message" then Some Attr_update_message
  else if String.eqb name "delete_message" then Some Attr_delete_message
  else None.

(** [service.<name>(arg)]: an attribute access followed by a call with one
    positional argument, as Python evaluates it. *)
Definition call_MessagesService_1 (name : string) (arg : string) : M pyval :=
  match MessagesService_getattr name with
  | None => raise (AttributeError name)
  | Some Attr_db_session => raise TypeError
  | Some Attr_get_message_by_id => m <- get_message_by_id arg ;; ret (PyMessage m)
  (* [data.get] on a UUID *)
  | Some Attr_create_message => raise (AttributeError "get")
  (* missing positional argument [data] *)
  | Some Attr_update_message => raise TypeError
  | Some Attr_delete_message => delete_message arg ;;; ret PyNone
  end.

(** [GET /messages/{conversation_id}]:
    [return await service.get_last_conversation_history(conversation_id)]. *)
Definition get_conversation_messages (conversation_id : string) : M pyval :=
  call_MessagesService_1 "get_last_conversation_history" conversation_id.

(** [POST /messages/]: the four query parameters become the payload dict. *)
Definition create_message_endpoint (conversation_id sender_id recipient_id content : string)
    : M Message :=
  create_message (mk_msg_data (Some conversation_id) (Some sender_id) (Some recipient_id)
                              (Some content)).

(** [PUT /messages/{message_id}] with [data = {"status": status}]; the path
    parameter is the message's identity. *)
Definition update_message_endpoint (message_id status : string) : M Message :=
  update_message message_id (Some status).

(** [DELETE /messages/{message_id}]; the value is that of the ["message"]
    key of the returned dict. *)
Definition delete_message_endpoint (message_id : string) : M string :=
  delete_message message_id ;;; ret "Message deleted successfully.".

(** The status of FastAPI's response: an [HTTPException] gives its code, any
    other exception escaping the endpoint gives 500. *)
Definition http_status {A} (r : result A) : Z :=
  match r with
  | Ok _ => 200
  | Raise (HTTPException c _) => c
  | Raise _ => 500
  end.

(** *** The conversation WebSocket (api/v1/endpoints/chat/conversations_ws.py) *)

(** A decoded JSON value, as [websocket.receive_json] returns it. *)
#[warnings="-register-all"]
Inductive json :=
| JNull
| JBool (b : bool)
| JNum (z : Z)
| JStr (s : string)
| JArr (l : list json)
| JObj (fields : list (string * json)).

(** Key lookup in a decoded object: [json.loads] keeps the last duplicate. *)
Definition json_get (k : string) (fields : list (string * json)) : option json :=
  fold_left (fun acc kv => if String.eqb (fst kv) k then Some (snd kv) else acc) fields None.

Definition str_field (k : string) (fields : list (string * json)) : option string :=
  match json_get k fields with Some (JStr v) => Some v | _ => None end.

(** The pydantic schemas of core/db/schemas/chat/websocket_actions.py: the
    fields are required [str]s, extra keys are ignored. *)
Record SendMessageData := mkSendMessageData {
  sd_sender_id : string;
  sd_recipient_id : string;
  sd_content : string
}.

Record SendMessageAction := mkSendMessageAction {
  sa_action : string;
  sa_data : SendMessageData
}.

Definition validate_SendMessageData (j : json) : option SendMessageData :=
  match j with
  | JObj f =>
      match str_field "sender_id" f, str_field "recipient_id" f, str_field "content" f with
      | Some s, Some r, Some c => Some (mkSendMessageData s r c)
      | _, _, _ => None
      end
  | _ => None
  end.

Definition validate_SendMessageAction (fields : list (string * json)) : option SendMessageAction :=
  match str_field "action" fields, json_get "data" fields with
  | Some a, Some d =>
      match validate_SendMessageData d with
      | Some sd => Some (mkSendMessageAction a sd)
      | None => None
      end
  | _, _ => None
  end.

(** [SendMessageAction( **raw_data)]: [**] on a non-mapping is a
    [TypeError], a failed validation a pydantic [ValidationError]. *)
Definition SendMessageAction_new (raw : json) : M SendMessageAction :=
  match raw with
  | JObj fields =>
      match validate_SendMessageAction fields with
      | Some a => ret a
      | None => raise ValidationError
      end
  | _ => raise TypeError
  end.

(** utils/chat/chat_responses.py *)
Definition error_response (error_detail : string) : json :=
  JObj [("error", JStr error_detail)].

Definition message_saved_response (s r c : string) : json :=
  JObj [("action", JStr "message_saved");
        ("data", JObj [("sender_id", JStr s); ("recipient_id", JStr r); ("content", JStr c)])].

(** handlers/chat/send_message_handler.py *)
Definition handle_send_message (cid sender recipient body : string) : M json :=
  new_message <- create_message (mk_msg_data (Some cid) (Some sender) (Some recipient) (Some body)) ;;
  ret (message_saved_response sender recipient body).

(** What [websocket.receive_json()] yields next. *)
Inductive ws_event :=
| Recv (j : json)
| RecvInvalidJSON
| ClientDisconnect.

Definition receive_json (ev : ws_event) : M json :=
  match ev with
  | Recv j => ret j
  | RecvInvalidJSON => raise JSONDecodeError
  | ClientDisconnect => raise WebSocketDisconnect
  end.

(** The [try] block of one loop iteration; its value is the frame sent. *)
Definition ws_try_block (cid : string) (ev : ws_event) : M json :=
  raw_data <- receive_json ev ;;
  message_action <- SendMessageAction_new raw_data ;;
  if String.eqb (sa_action message_action) "send_message" then
    handle_send_message cid (sd_sender_id (sa_data message_action))
      (sd_recipient_id (sa_data message_action)) (sd_content (sa_data message_action))
  else ret (error_response "Unknown action").

(** One iteration with its [except] clauses: the frames sent and whether
    the loop goes on ([continue]) or ends ([break]). *)
Definition ws_iteration (cid : string) (ev : ws_event) (s : db) : list json * bool * db :=
  match ws_try_block cid ev s with
  | (Ok frame, s') => ([frame], true, s')
  | (Raise (HTTPException _ d), s') => ([error_response d], true, s')
  | (Raise WebSocketDisconnect, s') => ([], false, s')
  | (Raise _, s') => ([error_response "Unexpected server error."], false, s')
  end.

Inductive session_state := Active | Closed.

(** The [while True] loop over the frames the client sends: the frames sent
    back, whether the loop is still running, and the store. *)
Fixpoint ws_loop (cid : string) (evs : list ws_event) (s : db)
    : list json * session_state * db :=
  match evs with
  | [] => ([], Active, s)
  | ev :: rest =>
      let '(out, go_on, s') := ws_iteration cid ev s in
      if go_on then
        let '(out', st, s'') := ws_loop cid rest s' in ((out ++ out')%list, st, s'')
      else (out, Closed, s')
  end.

(** [conversation_messages_websocket]: the handshake, then the loop; [None]
    is the close with code 1008 before [accept]. *)
Definition conversation_messages_websocket (cid : string) (evs : list ws_event) (s : db)
    : option (list json * session_state) * db :=
  match get_conversation_by_id cid s with
  | (Ok _, s') => let '(out, st, s'') := ws_loop cid evs s' in (Some (out, st), s'')
  | (Raise _, s') => (None, s')
  end.

End Services.

(** ** A concrete UUID parser and a sample store *)

(** [uuid.UUID] restricted to its canonical input: hyphens removed, exactly
    32 hexadecimal digits. *)
Definition hex_digit (c : ascii) : option N :=
  let n := N_of_ascii c in
  if (48 <=? n)%N && (n <=? 57)%N then Some (n - 48)%N
  else if (97 <=? n)%N && (n <=? 102)%N then Some (n - 87)%N
  else if (65 <=? n)%N && (n <=? 70)%N then Some (n - 55)%N
  else None.

Fixpoint hex_value (cs : list ascii) (acc : N) : option N :=
  match cs with
  | [] => Some acc
  | c :: rest =>
      match hex_digit c with
      | Some d => hex_value rest (16 * acc + d)%N
      | None => None
      end
  end.

Definition hex_uuid (v : string) : option uuid :=
  let cs := filter (fun c => negb (Ascii.eqb c "-"%char)) (list_ascii_of_string v) in
  if Nat.eqb (length cs) 32 then hex_value cs 0%N else None.

Definition user_a : string := "00000000-0000-0000-0000-00000000000a".
Definition user_b : string := "00000000-0000-0000-0000-00000000000b".
Definition user_c : string := "00000000-0000-0000-0000-00000000000c".

Definition conv_ab : Conversations := mkConversations "conv-1" user_a user_b false None 1.

Definition sample_db : db := mkDb [conv_ab] [] 1 2.

Definition send (s r body : string) : msg_data :=
  mk_msg_data (Some "conv-1") (Some s) (Some r) (Some body).

(** ** Properties *)

(** The rows of [conversations] a lookup by identity selects. *)
Definition conv_rows (s : db) (cid : string) : list Conversations :=
  filter (fun c => String.eqb (c_id c) cid) (conversations s).

Definition message_rows (s : db) (mid : string) : list Message :=
  filter (fun m => String.eqb (m_id m) mid) (messages s).

(** A recipient field the UUID parser accepts, or one left out. *)
Definition recipient_ok (parse_uuid : string -> option uuid) (o : option string) : Prop :=
  match o with
  | None => True
  | Some r => r = "" \/ exists u, parse_uuid r = Some u
  end.

Lemma eqb_false_of_neq (x y : string) : x <> y -> String.eqb x y = false.
Proof. apply String.eqb_neq. Qed.

Lemma existsb_pair_false (u a b : uuid) :
  u <> a -> u <> b -> existsb (N.eqb u) [a; b] = false.
Proof.
  intros Ha Hb; simpl.
  rewrite (proj2 (N.eqb_neq u a) Ha), (proj2 (N.eqb_neq u b) Hb); reflexivity.
Qed.

Lemma existsb_pair_true (u a b : uuid) :
  u = a \/ u = b -> existsb (N.eqb u) [a; b] = true.
Proof.
  intros [-> | ->]; simpl; rewrite N.eqb_refl; [reflexivity | apply orb_true_r].
Qed.

(** After the field checks and the UUID conversions, [create_message] is
    its [try] block, with the parsed sender and recipient. *)
Lemma create_message_reaches_body (parse_uuid : string -> option uuid) (s : db)
    (cid sid body : string) (recipient : option string) (u : uuid) :
  cid <> "" -> sid <> "" -> body <> "" ->
  parse_uuid sid = Some u -> recipient_ok parse_uuid recipient ->
  exists ru,
    (match recipient with
     | None => ru = None
     | Some r =>
         (r = "" /\ ru = None) \/ (r <> "" /\ exists v, parse_uuid r = Some v /\ ru = Some v)
     end) /\
    create_message parse_uuid (mk_msg_data (Some cid) (Some sid) recipient (Some body)) s =
    try_except (create_message_body parse_uuid cid u ru body)
      (fun e => if is_http e then raise e
                else match e with
                     | IntegrityError =>
                         rollback ;;; raise (HTTPException 400 "Invalid data provided")
                     | _ => rollback ;;; server_error
                     end) s.
Proof.
  intros Hc Hs Hb Hu Hr.
  unfold create_message; simpl.
  rewrite (eqb_false_of_neq _ _ Hc), (eqb_false_of_neq _ _ Hs), (eqb_false_of_neq _ _ Hb).
  simpl. unfold bind at 1, try_except at 1, bind at 1, UUID at 1. rewrite Hu.
  destruct recipient as [r |]; simpl in Hr.
  - destruct (String.eqb_spec r "") as [-> | Hne].
    + exists None; split; [left; auto | reflexivity].
    + destruct Hr as [Hr | [v Hv]]; [contradiction |].
      exists (Some v); split; [right; split; eauto |].
      unfold ret, bind, UUID; simpl; rewrite Hv; reflexivity.
  - exists None; split; reflexivity.
Qed.

(** The [try] block of [create_message] on a stored conversation whose two
    participant identifiers parse. *)
Lemma create_message_body_found (parse_uuid : string -> option uuid) (s : db)
    (c : Conversations) (u : uuid) (ru : option uuid) (body : string) (a b : uuid) :
  conv_rows s (c_id c) = [c] ->
  parse_uuid (user_first_id c) = Some a -> parse_uuid (user_second_id c) = Some b ->
  create_message_body parse_uuid (c_id c) u ru body s =
  (if negb (existsb (N.eqb u) [a; b]) then
     forbidden "Sender not authorized in this conversation"
   else
     match ru with
     | Some r =>
         if negb (existsb (N.eqb r) [a; b]) then
           forbidden "Recipient not authorized in this conversation"
         else insert_message (c_id c) u body SENT
     | None => insert_message (c_id c) u body SENT
     end) s.
Proof.
  intros Hrows Ha Hb.
  unfold create_message_body, bind, select_conversations.
  unfold conv_rows in Hrows; rewrite Hrows; simpl.
  unfold UUID; rewrite Ha, Hb; reflexivity.
Qed.

(** The successful send: the message is appended with status [SENT]. *)
Lemma create_message_accepted (parse_uuid : string -> option uuid) (s : db)
    (c : Conversations) (sid body : string) (recipient : option string) (a b u : uuid) :
  conv_rows s (c_id c) = [c] -> c_id c <> "" -> sid <> "" -> body <> "" ->
  parse_uuid (user_first_id c) = Some a -> parse_uuid (user_second_id c) = Some b ->
  parse_uuid sid = Some u -> (u = a \/ u = b) ->
  match recipient with
  | None => True
  | Some r => r = "" \/ exists v, parse_uuid r = Some v /\ (v = a \/ v = b)
  end ->
  create_message parse_uuid (mk_msg_data (Some (c_id c)) (Some sid) recipient (Some body)) s =
  insert_message (c_id c) u body SENT s.
Proof.
  intros Hrows Hc Hs Hbody Ha Hb Hu Hmem Hr.
  assert (Hok : recipient_ok parse_uuid recipient).
  { destruct recipient as [r |]; simpl; auto.
    destruct Hr as [-> | [v [Hv _]]]; [left; reflexivity | right; eauto]. }
  destruct (create_message_reaches_body parse_uuid s (c_id c) sid body recipient u
              Hc Hs Hbody Hu Hok) as [ru [Hru ->]].
  unfold try_except.
  rewrite (create_message_body_found parse_uuid s c u ru body a b Hrows Ha Hb).
  rewrite (existsb_pair_true u a b Hmem); cbv beta iota delta [negb].
  destruct recipient as [r |].
  - destruct Hru as [[_ ->] | [Hne [v [Hv ->]]]]; [reflexivity |].
    destruct Hr as [Hr | [v' [Hv' Hmem']]].
    + contradiction.
    + rewrite Hv in Hv'; injection Hv' as <-.
      cbv beta iota; rewrite (existsb_pair_true v a b Hmem'); reflexivity.
  - subst ru; reflexivity.
Qed.

(** C1: a send from an identity that is neither participant of the
    conversation fails with 403 and leaves the store unchanged.  The send
    is well formed: conversation, sender and content fields non-empty, the
    sender and the recipient (when given) UUID strings, and the
    conversation's participant identifiers UUID strings. *)
Theorem create_message_non_participant_sender (parse_uuid : string -> option uuid)
    (s : db) (c : Conversations) (sid body : string) (recipient : option string)
    (a b u : uuid) :
  conv_rows s (c_id c) = [c] -> c_id c <> "" -> sid <> "" -> body <> "" ->
  parse_uuid (user_first_id c) = Some a -> parse_uuid (user_second_id c) = Some b ->
  parse_uuid sid = Some u -> u <> a -> u <> b -> recipient_ok parse_uuid recipient ->
  create_message parse_uuid (mk_msg_data (Some (c_id c)) (Some sid) recipient (Some body)) s
  = (Raise (HTTPException 403 "Sender not authorized in this conversation"), s).
Proof.
  intros Hrows Hc Hs Hbody Ha Hb Hu Hua Hub Hr.
  destruct (create_message_reaches_body parse_uuid s (c_id c) sid body recipient u
              Hc Hs Hbody Hu Hr) as [ru [_ ->]].
  unfold try_except.
  rewrite (create_message_body_found parse_uuid s c u ru body a b Hrows Ha Hb).
  rewrite (existsb_pair_false u a b Hua Hub); reflexivity.
Qed.

(** C5 (as stated: a recipient equal to the sender is refused): refuted.
    [user_a] sends to [user_a] in the conversation of [user_a] and [user_b];
    the message is stored. *)
Lemma create_message_recipient_is_sender_accepted :
  exists m,
    create_message hex_uuid (send user_a user_a "hi") sample_db =
    (Ok m, mkDb [conv_ab] [m] 2 3).
Proof.
  eexists. vm_compute. reflexivity.
Qed.

(** C5 (amended): the recipient check is a membership test.  A given
    recipient that is not one of the two participants makes the send fail
    with 403 and leaves the store unchanged; a recipient equal to the
    sender, when the sender is a participant, is accepted and the message is
    stored. *)
Theorem create_message_recipient_membership (parse_uuid : string -> option uuid)
    (s : db) (c : Conversations) (sid body : string) (a b u : uuid) :
  conv_rows s (c_id c) = [c] -> c_id c <> "" -> sid <> "" -> body <> "" ->
  parse_uuid (user_first_id c) = Some a -> parse_uuid (user_second_id c) = Some b ->
  parse_uuid sid = Some u ->
  (forall (r : string) (v : uuid), r <> "" -> parse_uuid r = Some v -> v <> a -> v <> b ->
     exists detail,
       create_message parse_uuid (mk_msg_data (Some (c_id c)) (Some sid) (Some r) (Some body)) s
       = (Raise (HTTPException 403 detail), s)) /\
  ((u = a \/ u = b) ->
     create_message parse_uuid (mk_msg_data (Some (c_id c)) (Some sid) (Some sid) (Some body)) s
     = insert_message (c_id c) u body SENT s).
Proof.
  intros Hrows Hc Hs Hbody Ha Hb Hu; split.
  - intros r v Hr Hv Hva Hvb.
    assert (Hok : recipient_ok parse_uuid (Some r)) by (right; eauto).
    destruct (create_message_reaches_body parse_uuid s (c_id c) sid body (Some r) u
                Hc Hs Hbody Hu Hok) as [ru [Hru ->]].
    destruct Hru as [[Hr' _] | [_ [v' [Hv' ->]]]]; [contradiction |].
    rewrite Hv in Hv'; injection Hv' as <-.
    unfold try_except.
    rewrite (create_message_body_found parse_uuid s c u (Some v) body a b Hrows Ha Hb).
    destruct (existsb (N.eqb u) [a; b]); cbv beta iota delta [negb].
    + rewrite (existsb_pair_false v a b Hva Hvb); cbv beta iota delta [negb].
      eexists; reflexivity.
    + eexists; reflexivity.
  - intros Hmem.
    apply (create_message_accepted parse_uuid s c sid body (Some sid) a b u); auto.
    right; exists u; auto.
Qed.

(** Setting the soft-delete flag and timestamp of the conversation [cid]. *)
Definition set_soft_deleted (cid : string) (t : Z) (s : db) : db :=
  mkDb (map (fun c => if String.eqb (c_id c) cid
                      then mkConversations (c_id c) (user_first_id c) (user_second_id c)
                                           true (Some t) (c_created_at c)
                      else c) (conversations s))
       (messages s) (db_seq s) (db_clock s).

Lemma filter_map_same {A} (p : A -> bool) (g : A -> A) (l : list A) :
  (forall x, p (g x) = p x) -> filter p (map g l) = map g (filter p l).
Proof.
  intros Hp; induction l as [| x l IH]; simpl; [reflexivity |].
  rewrite Hp; destruct (p x); simpl; rewrite IH; reflexivity.
Qed.

Lemma create_message_body_soft_deleted (parse_uuid : string -> option uuid)
    (cid : string) (u : uuid) (ru : option uuid) (body : string) (cid' : string) (t : Z)
    (s : db) :
  create_message_body parse_uuid cid u ru body (set_soft_deleted cid' t s) =
  let '(r, s') := create_message_body parse_uuid cid u ru body s in
  (r, set_soft_deleted cid' t s').
Proof.
  unfold create_message_body, bind, select_conversations, set_soft_deleted; simpl.
  rewrite filter_map_same
    by (intros x; destruct (String.eqb (c_id x) cid'); reflexivity).
  destruct (filter (fun c => String.eqb (c_id c) cid) (conversations s)) as [| c [| c' l]];
    simpl; try reflexivity.
  destruct (String.eqb (c_id c) cid'); simpl;
    unfold UUID, ret, raise, forbidden, insert_message;
    repeat (match goal with
            | |- context [match ?x with Some _ => _ | None => _ end] => destruct x
            | |- context [if ?b then _ else _] => destruct b
            end; simpl);
    reflexivity.
Qed.

(** C3 (amended): [create_message] never reads the soft-delete flag.  For
    every request, sending to the store in which conversation [cid] is
    flagged deleted gives the same outcome as sending to the store without
    the flag, and the resulting stores differ only by that flag.  So a send
    to a soft-deleted conversation does not fail [NotFound]. *)
Theorem create_message_ignores_soft_delete (parse_uuid : string -> option uuid)
    (data : msg_data) (cid : string) (t : Z) (s : db) :
  create_message parse_uuid data (set_soft_deleted cid t s) =
  let '(r, s') := create_message parse_uuid data s in (r, set_soft_deleted cid t s').
Proof.
  unfold create_message.
  destruct (d_conversation_id data) as [conv |]; [| reflexivity].
  destruct (d_sender_id data) as [sid |]; [| reflexivity].
  destruct (d_content data) as [body |]; [| reflexivity].
  destruct (String.eqb conv "" || String.eqb sid "" || String.eqb body ""); [reflexivity |].
  unfold bind at 1 3, try_except at 1 3, bind at 1 3, UUID at 1 3.
  destruct (parse_uuid sid) as [u |]; [| reflexivity].
  unfold bind, ret.
  destruct (d_recipient_id data) as [rid |].
  2: { unfold try_except. rewrite create_message_body_soft_deleted.
       destruct (create_message_body parse_uuid conv u None body s) as [[m | e] s'];
         [reflexivity |].
       destruct (is_http e); [reflexivity |]; destruct e; reflexivity. }
  destruct (String.eqb rid "").
  { unfold try_except. rewrite create_message_body_soft_deleted.
    destruct (create_message_body parse_uuid conv u None body s) as [[m | e] s'];
      [reflexivity |].
    destruct (is_http e); [reflexivity |]; destruct e; reflexivity. }
  unfold UUID, ret, raise.
  destruct (parse_uuid rid) as [v |]; [| reflexivity].
  unfold try_except. rewrite create_message_body_soft_deleted.
  destruct (create_message_body parse_uuid conv u (Some v) body s) as [[m | e] s'];
    [reflexivity |].
  destruct (is_http e); [reflexivity |]; destruct e; reflexivity.
Qed.

(** C3 (as stated): refuted.  Conversation [conv_ab] flagged deleted; its
    participant [user_a] sends to it and the message is stored. *)
Lemma create_message_soft_deleted_accepted :
  exists m,
    create_message hex_uuid (send user_a user_b "hi") (set_soft_deleted "conv-1" 5 sample_db) =
    (Ok m, set_soft_deleted "conv-1" 5 (mkDb [conv_ab] [m] 2 3)) /\
    is_deleted (hd conv_ab (conversations (set_soft_deleted "conv-1" 5 sample_db))) = true.
Proof.
  eexists. split; vm_compute; reflexivity.
Qed.

(** C6: looking up an identity with no stored conversation ends in 500, not
    404: the [HTTPException(404)] raised inside the [try] is caught by its
    own [except Exception]. *)
Theorem get_conversation_by_id_absent (cid : string) (s : db) :
  conv_rows s cid = [] ->
  get_conversation_by_id cid s = (Raise (HTTPException 500 "Unexpected server error!"), s).
Proof.
  intros Hnone.
  unfold get_conversation_by_id, try_except, bind, select_conversations.
  unfold conv_rows in Hnone; rewrite Hnone; reflexivity.
Qed.

Lemma get_conversation_by_id_absent_witness :
  conv_rows sample_db "conv-2" = [] /\
  get_conversation_by_id "conv-2" sample_db =
  (Raise (HTTPException 500 "Unexpected server error!"), sample_db).
Proof.
  split; [reflexivity |].
  apply get_conversation_by_id_absent; reflexivity.
Defined.

(** [get_conversation_by_id] raises nothing but [HTTPException] and leaves
    the store as it is. *)
Lemma get_conversation_by_id_cases (cid : string) (s : db) :
  (exists c, get_conversation_by_id cid s = (Ok c, s)) \/
  get_conversation_by_id cid s = (Raise (HTTPException 500 "Unexpected server error!"), s).
Proof.
  unfold get_conversation_by_id, try_except, bind, select_conversations.
  destruct (filter (fun c => String.eqb (c_id c) cid) (conversations s)) as [| c [| c' l]];
    simpl; [right; reflexivity | left; eexists; reflexivity | right; reflexivity].
Qed.

(** C7: [delete_conversation] never succeeds.  On every store and every
    identity, existing or not, it fails with 500 and the store is
    unchanged: on an existing conversation [datetime.utcnow()] raises
    [NameError], which the [except Exception] clause turns into 500. *)
Theorem delete_conversation_always_fails (cid : string) (s : db) :
  delete_conversation cid s = (Raise (HTTPException 500 "Unexpected server error!"), s).
Proof.
  unfold delete_conversation, try_except, bind at 1.
  destruct (get_conversation_by_id_cases cid s) as [[c ->] | ->]; reflexivity.
Qed.

(** C8: [GET /messages/{conversation_id}] calls
    [service.get_last_conversation_history], a method [MessagesService]
    does not define; for every identity and store the call raises
    [AttributeError], answered with 500, and no message is returned. *)
Theorem get_conversation_messages_attribute_error (cid : string) (s : db) :
  get_conversation_messages cid s =
  (Raise (AttributeError "get_last_conversation_history"), s) /\
  http_status (fst (get_conversation_messages cid s)) = 500%Z.
Proof.
  split; reflexivity.
Qed.

(** The members [MessageStatus(v)] accepts are looked up by value. *)
Lemma MessageStatus_of_value_spec (v : string) (st : MessageStatus) :
  MessageStatus_of_value v = Some st <-> v = MessageStatus_value st.
Proof.
  cbv beta iota delta [MessageStatus_of_value find MessageStatus_value].
  destruct (String.eqb_spec "SENT" v) as [<- | H1];
    [destruct st; simpl; split; congruence |].
  destruct (String.eqb_spec "DELIVIRED" v) as [<- | H2];
    [destruct st; simpl; split; congruence |].
  destruct (String.eqb_spec "READ" v) as [<- | H3];
    [destruct st; simpl; split; congruence |].
  split; intros H; [discriminate H | destruct st; simpl in H; congruence].
Qed.

(** The updated row [set_message_status] writes. *)
Definition with_status (m : Message) (st : MessageStatus) : Message :=
  mkMessage (m_id m) (conversation_id m) (sender_id m) (content m) st (m_created_at m).

(** [update_message] on an existing message and an accepted status value
    writes the status, whatever the current one. *)
Lemma update_message_existing (s : db) (mid v : string) (m : Message) (st : MessageStatus) :
  message_rows s mid = [m] -> MessageStatus_of_value v = Some st ->
  update_message mid (Some v) s = set_message_status m st s.
Proof.
  intros Hrows Hv.
  assert (Hne : String.eqb v "" = false).
  { apply String.eqb_neq; intros ->; apply MessageStatus_of_value_spec in Hv.
    destruct st; discriminate. }
  unfold update_message, truthy; rewrite Hne; cbv beta iota delta [negb].
  rewrite Hv.
  unfold try_except, bind, get_message_by_id, try_except, bind, select_messages.
  unfold message_rows in Hrows; rewrite Hrows; reflexivity.
Qed.

Lemma message_rows_set_status (s : db) (mid : string) (m : Message) (st : MessageStatus) :
  message_rows s mid = [m] ->
  message_rows (snd (set_message_status m st s)) mid = [with_status m st].
Proof.
  intros Hrows.
  assert (Hid : m_id m = mid).
  { assert (Hin : In m (message_rows s mid)) by (rewrite Hrows; left; reflexivity).
    unfold message_rows in Hin; apply filter_In in Hin.
    apply String.eqb_eq; apply Hin. }
  unfold message_rows in *; simpl.
  rewrite filter_map_same.
  - rewrite Hrows; simpl; rewrite String.eqb_refl; reflexivity.
  - intros x; destruct (String.eqb (m_id x) (m_id m)) eqn:E; simpl; [| reflexivity].
    apply String.eqb_eq in E; rewrite E; reflexivity.
Qed.

(** A message whose status is [READ]. *)
Definition msg_read : Message := mkMessage "msg-1" "conv-1" 10%N "hi" READ 2%Z.

Definition sample_db_read : db := mkDb [conv_ab] [msg_read] 2 3%Z.

(** C2 (as stated: a regression such as READ to SENT is refused): refuted.
    The message [msg_read] goes back from READ to SENT. *)
Lemma update_message_read_to_sent :
  update_message "msg-1" (Some "SENT") sample_db_read =
  (Ok (with_status msg_read SENT), mkDb [conv_ab] [with_status msg_read SENT] 2 3).
Proof. vm_compute. reflexivity. Qed.

(** C2 (amended): [update_message] checks no transition.  For every
    existing message and every value [MessageStatus] accepts, the call
    succeeds and stores that status, whatever the current status is. *)
Theorem update_message_any_transition (s : db) (mid v : string) (m : Message)
    (st : MessageStatus) :
  message_rows s mid = [m] -> MessageStatus_of_value v = Some st ->
  exists s',
    update_message mid (Some v) s = (Ok (with_status m st), s') /\
    message_rows s' mid = [with_status m st].
Proof.
  intros Hrows Hv.
  exists (snd (set_message_status m st s)); split.
  - rewrite (update_message_existing s mid v m st Hrows Hv); reflexivity.
  - apply message_rows_set_status; exact Hrows.
Qed.

Lemma update_message_any_transition_witness :
  exists s',
    update_message "msg-1" (Some "SENT") sample_db_read = (Ok (with_status msg_read SENT), s') /\
    message_rows s' "msg-1" = [with_status msg_read SENT].
Proof.
  apply (update_message_any_transition sample_db_read "msg-1" "SENT" msg_read SENT);
    reflexivity.
Defined.

(** C10: on an existing message, [update_message] succeeds exactly for the
    values "SENT", "DELIVIRED" and "READ"; the name "DELIVERED" is refused
    with 400 "Invalid status value" and the store is unchanged. *)
Theorem update_message_accepted_values (s : db) (mid v : string) (m : Message) :
  message_rows s mid = [m] ->
  ((exists r s', update_message mid (Some v) s = (Ok r, s')) <->
   (v = "SENT" \/ v = "DELIVIRED" \/ v = "READ")) /\
  update_message mid (Some "DELIVERED") s =
  (Raise (HTTPException 400 "Invalid status value"), s).
Proof.
  intros Hrows; split; [| reflexivity].
  split.
  - intros [r [s' Hupd]].
    destruct (MessageStatus_of_value v) as [st |] eqn:Hv.
    + apply MessageStatus_of_value_spec in Hv; subst v.
      destruct st; simpl; auto.
    + exfalso. revert Hupd; unfold update_message, truthy.
      destruct (String.eqb v ""); cbv beta iota delta [negb];
        [intros H; discriminate H |].
      rewrite Hv; intros H; discriminate H.
  - intros Hval.
    assert (Hst : exists st, MessageStatus_of_value v = Some st).
    { destruct Hval as [-> | [-> | ->]]; eexists; reflexivity. }
    destruct Hst as [st Hv].
    rewrite (update_message_existing s mid v m st Hrows Hv).
    do 2 eexists; reflexivity.
Qed.

Lemma update_message_accepted_values_witness :
  ((exists r s', update_message "msg-1" (Some "DELIVIRED") sample_db_read = (Ok r, s')) <->
   ("DELIVIRED" = "SENT" \/ "DELIVIRED" = "DELIVIRED" \/ "DELIVIRED" = "READ")) /\
  update_message "msg-1" (Some "DELIVERED") sample_db_read =
  (Raise (HTTPException 400 "Invalid status value"), sample_db_read).
Proof.
  apply (update_message_accepted_values sample_db_read "msg-1" "DELIVIRED" msg_read).
  reflexivity.
Defined.

(** ** Conversations: the canonical pair *)

(** The ordered pair [create_conversation] stores and looks up. *)
Definition canonical (f g : string) : string * string :=
  if String.ltb f g then (f, g) else (g, f).

Definition pair_rows (s : db) (x y : string) : list Conversations :=
  filter (fun c => String.eqb (user_first_id c) x && String.eqb (user_second_id c) y)
         (conversations s).

(** The [unique_conversation] constraint of the table. *)
Definition unique_pairs (s : db) : Prop :=
  forall x y, length (pair_rows s x y) <= 1.

Lemma canonical_sym (f g : string) : f <> g -> canonical f g = canonical g f.
Proof.
  intros Hne; unfold canonical, String.ltb.
  rewrite (String.compare_antisym g f).
  destruct (String.compare f g) eqn:E; simpl; try reflexivity.
  apply String.compare_eq_iff in E; contradiction.
Qed.

Lemma canonical_ordered (f g : string) :
  f <> g -> String.ltb (fst (canonical f g)) (snd (canonical f g)) = true.
Proof.
  intros Hne; unfold canonical, String.ltb.
  destruct (String.compare f g) eqn:E; simpl.
  - apply String.compare_eq_iff in E; contradiction.
  - rewrite E; reflexivity.
  - rewrite String.compare_antisym, E; reflexivity.
Qed.

Lemma canonical_members (f g : string) :
  (fst (canonical f g) = f /\ snd (canonical f g) = g) \/
  (fst (canonical f g) = g /\ snd (canonical f g) = f).
Proof. unfold canonical; destruct (String.ltb f g); simpl; auto. Qed.

(** [create_conversation] on two distinct non-empty identifiers is the
    lookup of their canonical pair, followed by an insert when absent. *)
Lemma create_conversation_lookup (f g : string) (s : db) :
  f <> "" -> g <> "" -> f <> g ->
  create_conversation (Some f) (Some g) s =
  match pair_rows s (fst (canonical f g)) (snd (canonical f g)) with
  | [] => insert_conversation (fst (canonical f g)) (snd (canonical f g)) s
  | [c] => (Ok c, s)
  | _ => (Raise (HTTPException 500 "Unexpected server error!"), s)
  end.
Proof.
  intros Hf Hg Hfg.
  unfold create_conversation.
  rewrite (eqb_false_of_neq _ _ Hf), (eqb_false_of_neq _ _ Hg), (eqb_false_of_neq _ _ Hfg).
  cbv beta iota delta [orb].
  unfold canonical, pair_rows.
  destruct (String.ltb f g); simpl;
    unfold try_except, bind, select_conversations;
    match goal with
    | |- context [filter ?p (conversations s)] => destruct (filter p (conversations s)) as [| c [| c' l]]
    end; reflexivity.
Qed.

(** The row [insert_conversation] appends. *)
Definition new_conversation (x y : string) (s : db) : Conversations :=
  mkConversations (new_row_id s) x y false None (db_clock s).

Lemma pair_rows_insert (s : db) (x y : string) :
  pair_rows s x y = [] ->
  pair_rows (snd (insert_conversation x y s)) x y = [new_conversation x y s].
Proof.
  intros Hnone; unfold pair_rows in *; simpl.
  rewrite filter_app, Hnone; simpl.
  rewrite !String.eqb_refl; reflexivity.
Qed.

Lemma pair_rows_member (s : db) (x y : string) (c : Conversations) :
  pair_rows s x y = [c] -> user_first_id c = x /\ user_second_id c = y.
Proof.
  intros Hrows.
  assert (Hin : In c (pair_rows s x y)) by (rewrite Hrows; left; reflexivity).
  unfold pair_rows in Hin; apply filter_In in Hin; destruct Hin as [_ Hin].
  apply andb_prop in Hin; destruct Hin as [H1 H2].
  apply String.eqb_eq in H1; apply String.eqb_eq in H2; auto.
Qed.

(** C4: for two distinct non-empty identifiers, [create_conversation]
    stores them smaller first (in the order of Python's [<] on [str]) and
    is idempotent: a second call with the same pair, in either order,
    returns the same conversation and changes nothing.  The store meets the
    table's unique constraint on the pair. *)
Theorem create_conversation_canonical_idempotent (f g a2 b2 : string) (s : db) :
  f <> "" -> g <> "" -> f <> g -> unique_pairs s ->
  ((a2 = f /\ b2 = g) \/ (a2 = g /\ b2 = f)) ->
  exists c s1,
    create_conversation (Some f) (Some g) s = (Ok c, s1) /\
    create_conversation (Some a2) (Some b2) s1 = (Ok c, s1) /\
    String.ltb (user_first_id c) (user_second_id c) = true /\
    ((user_first_id c = f /\ user_second_id c = g) \/
     (user_first_id c = g /\ user_second_id c = f)).
Proof.
  intros Hf Hg Hfg Huniq Hargs.
  assert (Ha2 : a2 <> "") by (destruct Hargs as [[-> ->] | [-> ->]]; auto).
  assert (Hb2 : b2 <> "") by (destruct Hargs as [[-> ->] | [-> ->]]; auto).
  assert (Hab : a2 <> b2) by (destruct Hargs as [[-> ->] | [-> ->]]; auto).
  assert (Hcan : canonical a2 b2 = canonical f g)
    by (destruct Hargs as [[-> ->] | [-> ->]]; [reflexivity | apply canonical_sym; auto]).
  pose proof (canonical_ordered f g Hfg) as Hord.
  pose proof (canonical_members f g) as Hmem.
  rewrite (create_conversation_lookup f g s Hf Hg Hfg).
  destruct (canonical f g) as [x y]; simpl in *.
  specialize (Huniq x y).
  destruct (pair_rows s x y) as [| c [| c' l]] eqn:Hrows.
  - exists (new_conversation x y s), (snd (insert_conversation x y s)).
    rewrite (create_conversation_lookup a2 b2 _ Ha2 Hb2 Hab), Hcan.
    pose proof (pair_rows_insert s x y Hrows) as Hins.
    unfold insert_conversation in Hins |- *; simpl in Hins |- *.
    rewrite Hins.
    repeat split; auto.
  - destruct (pair_rows_member s x y c Hrows) as [Hx Hy].
    exists c, s.
    rewrite (create_conversation_lookup a2 b2 _ Ha2 Hb2 Hab), Hcan; simpl.
    rewrite Hrows; rewrite Hx, Hy; repeat split; auto.
  - simpl in Huniq; lia.
Qed.

Definition empty_db : db := mkDb [] [] 0 0.

Lemma create_conversation_canonical_idempotent_witness :
  exists c s1,
    create_conversation (Some user_b) (Some user_a) empty_db = (Ok c, s1) /\
    create_conversation (Some user_a) (Some user_b) s1 = (Ok c, s1) /\
    String.ltb (user_first_id c) (user_second_id c) = true /\
    ((user_first_id c = user_b /\ user_second_id c = user_a) \/
     (user_first_id c = user_a /\ user_second_id c = user_b)).
Proof.
  apply (create_conversation_canonical_idempotent user_b user_a user_a user_b empty_db);
    [discriminate | discriminate | discriminate | | right; split; reflexivity].
  intros x y; simpl; lia.
Defined.

(** ** The WebSocket loop *)

(** Whether a decoded frame passes [SendMessageAction( **raw_data)]. *)
Definition schema_valid (j : json) : bool :=
  match j with
  | JObj fields =>
      match validate_SendMessageAction fields with Some _ => true | None => false end
  | _ => false
  end.

(** A well-formed [send_message] frame. *)
Definition send_frame (s r body : string) : json :=
  JObj [("action", JStr "send_message");
        ("data", JObj [("sender_id", JStr s); ("recipient_id", JStr r); ("content", JStr body)])].

(** C9 (as stated: the session stays active after a malformed frame):
    refuted.  An empty object, then a valid send: the error frame is sent,
    the loop ends, and the send is never processed. *)
Lemma ws_loop_malformed_then_send :
  ws_loop hex_uuid "conv-1" [Recv (JObj []); Recv (send_frame user_a user_b "hi")] sample_db =
  ([error_response "Unexpected server error."], Closed, sample_db).
Proof. vm_compute. reflexivity. Qed.

(** C9 (amended): a frame that fails schema validation is answered with
    the error frame {"error": "Unexpected server error."}, the loop ends
    ([break]), no later frame is processed and the store is unchanged. *)
Theorem ws_loop_malformed_frame_closes (parse_uuid : string -> option uuid)
    (cid : string) (j : json) (rest : list ws_event) (s : db) :
  schema_valid j = false ->
  ws_loop parse_uuid cid (Recv j :: rest) s =
  ([error_response "Unexpected server error."], Closed, s).
Proof.
  intros Hinvalid.
  simpl ws_loop; unfold ws_iteration, ws_try_block, bind, receive_json, ret.
  destruct j as [| b | z | str | l | fields]; simpl; try reflexivity.
  unfold schema_valid in Hinvalid; unfold SendMessageAction_new.
  destruct (validate_SendMessageAction fields); [discriminate | reflexivity].
Qed.

Lemma ws_loop_malformed_frame_closes_witness :
  schema_valid (JObj [("action", JStr "send_message")]) = false /\
  ws_loop hex_uuid "conv-1"
    [Recv (JObj [("action", JStr "send_message")]); Recv (send_frame user_a user_b "hi")]
    sample_db =
  ([error_response "Unexpected server error."], Closed, sample_db).
Proof.
  split; [reflexivity |].
  apply ws_loop_malformed_frame_closes; reflexivity.
Defined.

(** The other branches of the loop, for comparison: a handled
    [HTTPException] (here a non-participant sender) is reported and the loop
    goes on to the next frame. *)
Example ws_loop_http_error_continues :
  ws_loop hex_uuid "conv-1"
    [Recv (send_frame user_c user_b "hi"); Recv (send_frame user_a user_b "hi")] sample_db =
  ([error_response "Sender not authorized in this conversation";
    message_saved_response user_a user_b "hi"], Active,
   snd (insert_message "conv-1" 10%N "hi" SENT sample_db)).
Proof. vm_compute. reflexivity. Qed.

(** ** Witnesses *)

Lemma create_message_non_participant_sender_witness :
  create_message hex_uuid (mk_msg_data (Some "conv-1") (Some user_c) (Some user_b) (Some "hi"))
    sample_db
  = (Raise (HTTPException 403 "Sender not authorized in this conversation"), sample_db).
Proof.
  apply (create_message_non_participant_sender hex_uuid sample_db conv_ab user_c "hi"
           (Some user_b) 10%N 11%N 12%N);
    try reflexivity; try discriminate.
  right; exists 11%N; reflexivity.
Defined.

Lemma create_message_recipient_membership_witness :
  (exists detail,
     create_message hex_uuid (mk_msg_data (Some "conv-1") (Some user_a) (Some user_c) (Some "hi"))
       sample_db = (Raise (HTTPException 403 detail), sample_db)) /\
  create_message hex_uuid (mk_msg_data (Some "conv-1") (Some user_a) (Some user_a) (Some "hi"))
    sample_db = insert_message "conv-1" 10%N "hi" SENT sample_db.
Proof.
  destruct (create_message_recipient_membership hex_uuid sample_db conv_ab user_a "hi"
              10%N 11%N 10%N) as [Hrec Hself];
    try reflexivity; try discriminate.
  split.
  - apply (Hrec user_c 12%N); try reflexivity; discriminate.
  - apply Hself; left; reflexivity.
Defined.

(** ** Further properties of the services *)

(** Shared by the proofs that follow. *)
Lemma get_message_by_id_lookup (mid : string) (s : db) :
  (message_rows s mid = [] ->
   get_message_by_id mid s = (Raise (HTTPException 404 "Message not found"), s)) /\
  (forall m, get_message_by_id mid s = (Ok m, s) <-> message_rows s mid = [m]) /\
  snd (get_message_by_id mid s) = s.
Proof.
  unfold get_message_by_id, message_rows, try_except, bind, select_messages.
  destruct (filter (fun m => String.eqb (m_id m) mid) (messages s)) as [| m0 [| m1 l]];
    simpl; repeat split; intros; try discriminate;
    try (match goal with H : _ = _ |- _ => inversion H; reflexivity end).
Qed.

(** [get_message_by_id] returns the stored row exactly when one row has
    that identity, answers 404 "Message not found" when none has, and never
    changes the store. *)
Theorem get_message_by_id_spec (mid : string) (s : db) :
  (message_rows s mid = [] ->
   get_message_by_id mid s = (Raise (HTTPException 404 "Message not found"), s)) /\
  (forall m, get_message_by_id mid s = (Ok m, s) <-> message_rows s mid = [m]) /\
  snd (get_message_by_id mid s) = s.
Proof. exact (get_message_by_id_lookup mid s). Qed.

(** Shared by the proofs that follow. *)
Lemma get_conversation_by_id_lookup (cid : string) (s : db) :
  (forall c, get_conversation_by_id cid s = (Ok c, s) <-> conv_rows s cid = [c]) /\
  snd (get_conversation_by_id cid s) = s.
Proof.
  unfold get_conversation_by_id, conv_rows, try_except, bind, select_conversations.
  destruct (filter (fun c => String.eqb (c_id c) cid) (conversations s)) as [| c0 [| c1 l]];
    simpl; repeat split; intros; try discriminate;
    try (match goal with H : _ = _ |- _ => inversion H; reflexivity end).
Qed.

(** [get_conversation_by_id] returns the stored row exactly when one row
    has that identity and never changes the store. *)
Theorem get_conversation_by_id_spec (cid : string) (s : db) :
  (forall c, get_conversation_by_id cid s = (Ok c, s) <-> conv_rows s cid = [c]) /\
  snd (get_conversation_by_id cid s) = s.
Proof. exact (get_conversation_by_id_lookup cid s). Qed.

Lemma message_rows_id (s : db) (mid : string) (m : Message) :
  message_rows s mid = [m] -> m_id m = mid.
Proof.
  intros Hrows.
  assert (Hin : In m (message_rows s mid)) by (rewrite Hrows; left; reflexivity).
  unfold message_rows in Hin; apply filter_In in Hin.
  apply String.eqb_eq; apply Hin.
Qed.

(** [delete_message] on an existing message removes exactly the rows with
    that identity, keeps the conversations, and a later lookup of the
    identity answers 404. *)
Theorem delete_message_existing (mid : string) (m : Message) (s : db) :
  message_rows s mid = [m] ->
  exists s',
    delete_message mid s = (Ok tt, s') /\
    messages s' = filter (fun x => negb (String.eqb (m_id x) mid)) (messages s) /\
    conversations s' = conversations s /\
    get_message_by_id mid s' = (Raise (HTTPException 404 "Message not found"), s').
Proof.
  intros Hrows.
  pose proof (message_rows_id s mid m Hrows) as Hid.
  assert (Hget : get_message_by_id mid s = (Ok m, s))
    by (apply (proj1 (proj2 (get_message_by_id_lookup mid s))); exact Hrows).
  eexists; split.
  - unfold delete_message, try_except, bind at 1. rewrite Hget. reflexivity.
  - simpl; rewrite Hid; split; [reflexivity | split; [reflexivity |]].
    apply (proj1 (get_message_by_id_lookup mid _)).
    unfold message_rows; simpl.
    induction (messages s) as [| x l IH]; simpl; [reflexivity |].
    destruct (String.eqb (m_id x) mid) eqn:E; simpl; [exact IH | rewrite E; exact IH].
Qed.

Lemma delete_message_existing_witness :
  exists s',
    delete_message "msg-1" sample_db_read = (Ok tt, s') /\
    messages s' = filter (fun x => negb (String.eqb (m_id x) "msg-1")) (messages sample_db_read) /\
    conversations s' = conversations sample_db_read /\
    get_message_by_id "msg-1" s' = (Raise (HTTPException 404 "Message not found"), s').
Proof.
  apply (delete_message_existing "msg-1" msg_read sample_db_read); reflexivity.
Defined.

(** [delete_message] of an absent identity answers 404 and keeps the store. *)
Theorem delete_message_absent (mid : string) (s : db) :
  message_rows s mid = [] ->
  delete_message mid s = (Raise (HTTPException 404 "Message not found"), s).
Proof.
  intros Hnone.
  unfold delete_message, try_except, bind at 1.
  rewrite (proj1 (get_message_by_id_lookup mid s) Hnone); reflexivity.
Qed.

Lemma delete_message_absent_witness :
  delete_message "msg-2" sample_db_read =
  (Raise (HTTPException 404 "Message not found"), sample_db_read).
Proof. apply delete_message_absent; reflexivity. Defined.

Lemma get_message_by_id_spec_witness :
  (message_rows sample_db_read "msg-2" = [] ->
   get_message_by_id "msg-2" sample_db_read =
   (Raise (HTTPException 404 "Message not found"), sample_db_read)) /\
  (forall m, get_message_by_id "msg-2" sample_db_read = (Ok m, sample_db_read) <->
             message_rows sample_db_read "msg-2" = [m]) /\
  snd (get_message_by_id "msg-2" sample_db_read) = sample_db_read.
Proof. exact (get_message_by_id_spec "msg-2" sample_db_read). Defined.

Lemma get_conversation_by_id_spec_witness :
  (forall c, get_conversation_by_id "conv-1" sample_db = (Ok c, sample_db) <->
             conv_rows sample_db "conv-1" = [c]) /\
  snd (get_conversation_by_id "conv-1" sample_db) = sample_db.
Proof. exact (get_conversation_by_id_spec "conv-1" sample_db). Defined.

(** [update_message] checks its input before the lookup: no or an empty
    status answers 400 "Missing status field", a value [MessageStatus] does
    not know answers 400 "Invalid status value" (whether the message exists
    or not), and a valid status for an absent message answers 404; the
    store is unchanged in every case. *)
Theorem update_message_errors (mid : string) (s : db) :
  update_message mid None s = (Raise (HTTPException 400 "Missing status field"), s) /\
  update_message mid (Some "") s = (Raise (HTTPException 400 "Missing status field"), s) /\
  (forall v, v <> "" -> MessageStatus_of_value v = None ->
     update_message mid (Some v) s = (Raise (HTTPException 400 "Invalid status value"), s)) /\
  (forall v st, MessageStatus_of_value v = Some st -> message_rows s mid = [] ->
     update_message mid (Some v) s = (Raise (HTTPException 404 "Message not found"), s)).
Proof.
  split; [reflexivity | split; [reflexivity | split]].
  - intros v Hne Hv.
    unfold update_message, truthy; rewrite (eqb_false_of_neq _ _ Hne).
    cbv beta iota delta [negb]; rewrite Hv; reflexivity.
  - intros v st Hv Hnone.
    assert (Hne : String.eqb v "" = false).
    { apply String.eqb_neq; intros ->; apply MessageStatus_of_value_spec in Hv.
      destruct st; discriminate. }
    unfold update_message, truthy; rewrite Hne; cbv beta iota delta [negb]; rewrite Hv.
    unfold try_except at 1, bind at 1.
    rewrite (proj1 (get_message_by_id_lookup mid s) Hnone); reflexivity.
Qed.

Lemma update_message_errors_witness :
  update_message "msg-2" None sample_db_read =
    (Raise (HTTPException 400 "Missing status field"), sample_db_read) /\
  update_message "msg-2" (Some "") sample_db_read =
    (Raise (HTTPException 400 "Missing status field"), sample_db_read) /\
  (forall v, v <> "" -> MessageStatus_of_value v = None ->
     update_message "msg-2" (Some v) sample_db_read =
     (Raise (HTTPException 400 "Invalid status value"), sample_db_read)) /\
  (forall v st, MessageStatus_of_value v = Some st -> message_rows sample_db_read "msg-2" = [] ->
     update_message "msg-2" (Some v) sample_db_read =
     (Raise (HTTPException 404 "Message not found"), sample_db_read)).
Proof. exact (update_message_errors "msg-2" sample_db_read). Defined.



(** [create_message] answers 400 "Missing required fields" when the
    conversation, sender or content field is missing or empty, before any
    lookup, and keeps the store. *)
Theorem create_message_missing_fields (parse_uuid : string -> option uuid)
    (data : msg_data) (s : db) :
  truthy (d_conversation_id data) = false \/ truthy (d_sender_id data) = false \/
  truthy (d_content data) = false ->
  create_message parse_uuid data s =
  (Raise (HTTPException 400 "Missing required fields"), s).
Proof.
  unfold create_message, truthy.
  destruct (d_conversation_id data) as [c |]; [| reflexivity].
  destruct (d_sender_id data) as [sid |]; [| reflexivity].
  destruct (d_content data) as [b |]; [| reflexivity].
  intros H.
  destruct (String.eqb c ""), (String.eqb sid ""), (String.eqb b "");
    simpl in *; try reflexivity; intuition discriminate.
Qed.

Lemma create_message_missing_fields_witness :
  create_message hex_uuid (mk_msg_data (Some "conv-9") (Some user_a) None (Some "")) empty_db =
  (Raise (HTTPException 400 "Missing required fields"), empty_db).
Proof. apply create_message_missing_fields; right; right; reflexivity. Defined.

(** With the required fields present, a sender, or a given non-empty
    recipient, that is not a UUID string is answered with 400 "Invalid UUID
    format" before the conversation is looked up; the store is kept. *)
Theorem create_message_invalid_uuid (parse_uuid : string -> option uuid)
    (cid sid body : string) (recipient : option string) (s : db) :
  cid <> "" -> sid <> "" -> body <> "" ->
  (parse_uuid sid = None \/
   exists r, recipient = Some r /\ r <> "" /\ parse_uuid r = None) ->
  create_message parse_uuid (mk_msg_data (Some cid) (Some sid) recipient (Some body)) s =
  (Raise (HTTPException 400 "Invalid UUID format"), s).
Proof.
  intros Hc Hs Hb Hbad.
  unfold create_message; simpl.
  rewrite (eqb_false_of_neq _ _ Hc), (eqb_false_of_neq _ _ Hs), (eqb_false_of_neq _ _ Hb).
  simpl. unfold bind at 1, try_except at 1, bind at 1, UUID at 1.
  destruct Hbad as [Hsid | [r [-> [Hr Hpr]]]].
  - rewrite Hsid; reflexivity.
  - destruct (parse_uuid sid); [| reflexivity].
    unfold bind, UUID, ret, raise; rewrite (eqb_false_of_neq _ _ Hr), Hpr; reflexivity.
Qed.

Lemma create_message_invalid_uuid_witness :
  create_message hex_uuid (mk_msg_data (Some "conv-1") (Some user_a) (Some "nobody") (Some "hi"))
    sample_db = (Raise (HTTPException 400 "Invalid UUID format"), sample_db).
Proof.
  apply create_message_invalid_uuid; try discriminate.
  right; exists "nobody"; split; [reflexivity | split; [discriminate | reflexivity]].
Defined.

(** A well-formed send to a conversation identity with no stored row is
    answered with 404 "Conversation not found" (the [HTTPException] is
    re-raised, not turned into 500) and keeps the store. *)
Theorem create_message_conversation_absent (parse_uuid : string -> option uuid)
    (cid sid body : string) (recipient : option string) (u : uuid) (s : db) :
  cid <> "" -> sid <> "" -> body <> "" -> parse_uuid sid = Some u ->
  recipient_ok parse_uuid recipient -> conv_rows s cid = [] ->
  create_message parse_uuid (mk_msg_data (Some cid) (Some sid) recipient (Some body)) s =
  (Raise (HTTPException 404 "Conversation not found"), s).
Proof.
  intros Hc Hs Hb Hu Hr Hnone.
  destruct (create_message_reaches_body parse_uuid s cid sid body recipient u Hc Hs Hb Hu Hr)
    as [ru [_ ->]].
  unfold try_except, create_message_body, bind, select_conversations.
  unfold conv_rows in Hnone; rewrite Hnone; reflexivity.
Qed.

Lemma create_message_conversation_absent_witness :
  create_message hex_uuid (send user_a user_b "hi") empty_db =
  (Raise (HTTPException 404 "Conversation not found"), empty_db).
Proof.
  apply (create_message_conversation_absent hex_uuid "conv-1" user_a "hi" (Some user_b) 10%N);
    try reflexivity; try discriminate.
  right; exists 11%N; reflexivity.
Defined.

Lemma create_message_body_effect (parse_uuid : string -> option uuid) (cid : string) (u : uuid)
    (ru : option uuid) (body : string) (s : db) :
  match create_message_body parse_uuid cid u ru body s with
  | (Raise _, s') => s' = s
  | (Ok m, s') => m = mkMessage (new_row_id s) cid u body SENT (db_clock s) /\
                  s' = mkDb (conversations s) (messages s ++ [m]) (S (db_seq s)) (Z.succ (db_clock s))
  end.
Proof.
  unfold create_message_body, bind, select_conversations.
  destruct (filter (fun c => String.eqb (c_id c) cid) (conversations s)) as [| c [| c' l]];
    simpl; try reflexivity.
  unfold UUID, ret, raise, forbidden, insert_message.
  repeat (match goal with
          | |- context [match ?x with Some _ => _ | None => _ end] => destruct x
          | |- context [if ?b then _ else _] => destruct b
          end; simpl);
    auto.
Qed.

(** Shared by the proofs that follow. *)
Lemma create_message_effect (parse_uuid : string -> option uuid)
    (data : msg_data) (s : db) :
  match create_message parse_uuid data s with
  | (Raise _, s') => s' = s
  | (Ok m, s') =>
      s' = mkDb (conversations s) (messages s ++ [m]) (S (db_seq s)) (Z.succ (db_clock s)) /\
      m_id m = new_row_id s /\ status m = SENT /\
      d_conversation_id data = Some (conversation_id m) /\
      d_content data = Some (content m) /\
      (exists sid, d_sender_id data = Some sid /\ parse_uuid sid = Some (sender_id m))
  end.
Proof.
  unfold create_message.
  destruct data as [dc ds dr db]; simpl.
  destruct dc as [cid |]; [| reflexivity].
  destruct ds as [sid |]; [| reflexivity].
  destruct db as [body |]; [| reflexivity].
  destruct (String.eqb cid "" || String.eqb sid "" || String.eqb body ""); [reflexivity |].
  unfold bind at 1, try_except at 1, bind at 1, UUID at 1.
  destruct (parse_uuid sid) as [u |] eqn:Hu; [| reflexivity].
  unfold bind, ret, raise, UUID.
  assert (Hk : forall ru,
    match try_except (create_message_body parse_uuid cid u ru body)
            (fun e => if is_http e then raise e
                      else match e with
                           | IntegrityError =>
                               rollback ;;; raise (HTTPException 400 "Invalid data provided")
                           | _ => rollback ;;; server_error
                           end) s with
    | (Raise _, s') => s' = s
    | (Ok m, s') =>
        s' = mkDb (conversations s) (messages s ++ [m]) (S (db_seq s)) (Z.succ (db_clock s)) /\
        m_id m = new_row_id s /\ status m = SENT /\
        Some cid = Some (conversation_id m) /\ Some body = Some (content m) /\
        (exists sid', Some sid = Some sid' /\ parse_uuid sid' = Some (sender_id m))
    end).
  { intros ru. unfold try_except.
    pose proof (create_message_body_effect parse_uuid cid u ru body s) as He.
    destruct (create_message_body parse_uuid cid u ru body s) as [[m | e] s'].
    - destruct He as [-> ->]; simpl; repeat split; eauto.
    - subst s'; destruct (is_http e); [reflexivity |]; destruct e; reflexivity. }
  destruct dr as [rid |]; [| apply Hk].
  destruct (String.eqb rid ""); [apply Hk |].
  destruct (parse_uuid rid); [apply Hk | reflexivity].
Qed.

(** What [create_message] does to the store: a failed call leaves it as it
    was; a successful one appends exactly one message, with a fresh row
    identity, status [SENT], the request's conversation identity, content
    and parsed sender, and changes nothing else. *)
Theorem create_message_store_effect (parse_uuid : string -> option uuid)
    (data : msg_data) (s : db) :
  match create_message parse_uuid data s with
  | (Raise _, s') => s' = s
  | (Ok m, s') =>
      s' = mkDb (conversations s) (messages s ++ [m]) (S (db_seq s)) (Z.succ (db_clock s)) /\
      m_id m = new_row_id s /\ status m = SENT /\
      d_conversation_id data = Some (conversation_id m) /\
      d_content data = Some (content m) /\
      (exists sid, d_sender_id data = Some sid /\ parse_uuid sid = Some (sender_id m))
  end.
Proof. exact (create_message_effect parse_uuid data s). Qed.



(** Shared by the proofs that follow. *)
Lemma create_conversation_checks (first second : option string) (f : string) (s : db) :
  (truthy first = false \/ truthy second = false ->
   create_conversation first second s = (Raise (HTTPException 400 "Missing user IDs"), s)) /\
  (f <> "" ->
   create_conversation (Some f) (Some f) s =
   (Raise (HTTPException 400 "Cannot create conversation with the same user"), s)).
Proof.
  split.
  - unfold create_conversation, truthy.
    destruct first as [x |]; [| reflexivity]; destruct second as [y |]; [| reflexivity].
    intros H; destruct (String.eqb x ""), (String.eqb y ""); simpl in *;
      try reflexivity; intuition discriminate.
  - intros Hf; unfold create_conversation.
    rewrite (eqb_false_of_neq _ _ Hf), String.eqb_refl; reflexivity.
Qed.

(** [create_conversation] refuses a missing or empty identifier with 400
    "Missing user IDs" and two equal identifiers with 400 "Cannot create
    conversation with the same user"; the store is kept. *)
Theorem create_conversation_input_errors (first second : option string) (f : string) (s : db) :
  (truthy first = false \/ truthy second = false ->
   create_conversation first second s = (Raise (HTTPException 400 "Missing user IDs"), s)) /\
  (f <> "" ->
   create_conversation (Some f) (Some f) s =
   (Raise (HTTPException 400 "Cannot create conversation with the same user"), s)).
Proof. exact (create_conversation_checks first second f s). Qed.

Lemma create_conversation_input_errors_witness :
  (truthy (Some "") = false \/ truthy (Some user_a) = false ->
   create_conversation (Some "") (Some user_a) empty_db =
   (Raise (HTTPException 400 "Missing user IDs"), empty_db)) /\
  (user_a <> "" ->
   create_conversation (Some user_a) (Some user_a) empty_db =
   (Raise (HTTPException 400 "Cannot create conversation with the same user"), empty_db)).
Proof. exact (create_conversation_input_errors (Some "") (Some user_a) user_a empty_db). Defined.




(** ** Further properties of the WebSocket endpoint *)

(** The handshake: with one stored row for the identity the socket is
    accepted and the frames are served by the loop (the soft-delete flag is
    not looked at); with none it is closed (code 1008) before [accept], no
    frame is read and the store is kept. *)
Theorem conversation_messages_websocket_handshake (parse_uuid : string -> option uuid)
    (cid : string) (evs : list ws_event) (s : db) :
  (forall c, conv_rows s cid = [c] ->
   conversation_messages_websocket parse_uuid cid evs s =
   let '(out, st, s') := ws_loop parse_uuid cid evs s in (Some (out, st), s')) /\
  (conv_rows s cid = [] -> conversation_messages_websocket parse_uuid cid evs s = (None, s)).
Proof.
  split.
  - intros c Hrows; unfold conversation_messages_websocket.
    rewrite (proj2 (proj1 (get_conversation_by_id_lookup cid s) c) Hrows); reflexivity.
  - intros Hnone; unfold conversation_messages_websocket.
    rewrite (get_conversation_by_id_absent cid s Hnone); reflexivity.
Qed.

Lemma conversation_messages_websocket_handshake_witness :
  (forall c, conv_rows sample_db "conv-1" = [c] ->
   conversation_messages_websocket hex_uuid "conv-1" [ClientDisconnect] sample_db =
   let '(out, st, s') := ws_loop hex_uuid "conv-1" [ClientDisconnect] sample_db in
   (Some (out, st), s')) /\
  (conv_rows sample_db "conv-1" = [] ->
   conversation_messages_websocket hex_uuid "conv-1" [ClientDisconnect] sample_db =
   (None, sample_db)).
Proof. exact (conversation_messages_websocket_handshake hex_uuid "conv-1" [ClientDisconnect] sample_db). Defined.

(** A disconnect ends the loop without a frame; undecodable JSON is
    answered with {"error": "Unexpected server error."} and ends it; the
    store is kept in both cases. *)
Theorem ws_loop_stops (parse_uuid : string -> option uuid) (cid : string)
    (rest : list ws_event) (s : db) :
  ws_loop parse_uuid cid (ClientDisconnect :: rest) s = ([], Closed, s) /\
  ws_loop parse_uuid cid (RecvInvalidJSON :: rest) s =
  ([error_response "Unexpected server error."], Closed, s).
Proof. split; reflexivity. Qed.

(** A frame that passes validation but names another action than
    "send_message" is answered with {"error": "Unknown action"} and the
    loop goes on with the next frame, the store unchanged. *)
Theorem ws_loop_unknown_action (parse_uuid : string -> option uuid) (cid : string)
    (fields : list (string * json)) (a : SendMessageAction) (rest : list ws_event) (s : db) :
  validate_SendMessageAction fields = Some a -> sa_action a <> "send_message" ->
  ws_loop parse_uuid cid (Recv (JObj fields) :: rest) s =
  let '(out, st, s') := ws_loop parse_uuid cid rest s in
  ((error_response "Unknown action" :: out)%list, st, s').
Proof.
  intros Hv Ha.
  simpl ws_loop; unfold ws_iteration, ws_try_block, bind, receive_json, ret,
    SendMessageAction_new.
  rewrite Hv; unfold ret; cbv beta iota zeta; rewrite (eqb_false_of_neq _ _ Ha); reflexivity.
Qed.

Lemma ws_loop_unknown_action_witness :
  ws_loop hex_uuid "conv-1"
    [Recv (JObj [("action", JStr "edit");
                 ("data", JObj [("sender_id", JStr user_a); ("recipient_id", JStr user_b);
                                ("content", JStr "x")])])] sample_db =
  let '(out, st, s') := ws_loop hex_uuid "conv-1" [] sample_db in
  ((error_response "Unknown action" :: out)%list, st, s').
Proof. apply ws_loop_unknown_action with (a := mkSendMessageAction "edit" (mkSendMessageData user_a user_b "x")); [reflexivity | discriminate]. Defined.

(** The reply frame for one call of [create_message] in the loop. *)
Definition send_reply (sd r c : string) (res : result Message) : list json * bool :=
  match res with
  | Ok _ => ([message_saved_response sd r c], true)
  | Raise (HTTPException _ d) => ([error_response d], true)
  | Raise WebSocketDisconnect => ([], false)
  | Raise _ => ([error_response "Unexpected server error."], false)
  end.

(** A valid "send_message" frame is one call of [create_message] with the
    frame's fields: on success the loop replies with "message_saved"
    echoing sender, recipient and content, on an [HTTPException] with its
    detail, and in both cases goes on with the next frame on the new store. *)
Theorem ws_loop_send_message (parse_uuid : string -> option uuid) (cid : string)
    (fields : list (string * json)) (sd r c : string) (rest : list ws_event) (s : db) :
  validate_SendMessageAction fields =
    Some (mkSendMessageAction "send_message" (mkSendMessageData sd r c)) ->
  ws_loop parse_uuid cid (Recv (JObj fields) :: rest) s =
  let '(res, s1) := create_message parse_uuid (mk_msg_data (Some cid) (Some sd) (Some r) (Some c)) s in
  let '(frames, go_on) := send_reply sd r c res in
  if go_on then
    let '(out, st, s2) := ws_loop parse_uuid cid rest s1 in ((frames ++ out)%list, st, s2)
  else (frames, Closed, s1).
Proof.
  intros Hv.
  simpl ws_loop; unfold ws_iteration, ws_try_block, bind at 1, receive_json, ret at 1.
  unfold SendMessageAction_new at 1; rewrite Hv; simpl.
  cbv beta iota zeta delta [bind ret sa_action sa_data sd_sender_id sd_recipient_id sd_content].
  rewrite String.eqb_refl.
  unfold handle_send_message, bind, ret; cbv beta iota zeta.
  destruct (create_message parse_uuid _ s) as [[m | e] s1]; simpl; [reflexivity |].
  destruct e; reflexivity.
Qed.

Lemma ws_loop_send_message_witness :
  ws_loop hex_uuid "conv-1" [Recv (send_frame user_a user_b "hi")] sample_db =
  let '(res, s1) := create_message hex_uuid (send user_a user_b "hi") sample_db in
  let '(frames, go_on) := send_reply user_a user_b "hi" res in
  if go_on then
    let '(out, st, s2) := ws_loop hex_uuid "conv-1" [] s1 in ((frames ++ out)%list, st, s2)
  else (frames, Closed, s1).
Proof. apply ws_loop_send_message; reflexivity. Defined.

(** Over any run of the loop the conversations are never changed and the
    stored messages only grow at the end: nothing is deleted or rewritten. *)
Theorem ws_loop_append_only (parse_uuid : string -> option uuid) (cid : string)
    (evs : list ws_event) (s : db) :
  let '(_, _, s') := ws_loop parse_uuid cid evs s in
  conversations s' = conversations s /\ exists added, messages s' = (messages s ++ added)%list.
Proof.
  revert s; induction evs as [| ev rest IH]; intros s; simpl.
  - split; [reflexivity | exists []; rewrite app_nil_r; reflexivity].
  - assert (Hit : let '(_, _, s1) := ws_iteration parse_uuid cid ev s in
                  conversations s1 = conversations s /\
                  exists added, messages s1 = (messages s ++ added)%list).
    { unfold ws_iteration, ws_try_block, bind, receive_json, ret.
      destruct ev as [j | |]; simpl;
        try (split; [reflexivity | exists []; rewrite app_nil_r; reflexivity]).
      unfold SendMessageAction_new.
      destruct j as [| | | | | fields]; simpl;
        try (split; [reflexivity | exists []; rewrite app_nil_r; reflexivity]).
      destruct (validate_SendMessageAction fields) as [a |]; simpl;
        [| split; [reflexivity | exists []; rewrite app_nil_r; reflexivity]].
      destruct (String.eqb (sa_action a) "send_message"); simpl;
        [| split; [reflexivity | exists []; rewrite app_nil_r; reflexivity]].
      unfold handle_send_message, bind, ret.
      pose proof (create_message_effect parse_uuid
                    (mk_msg_data (Some cid) (Some (sd_sender_id (sa_data a)))
                       (Some (sd_recipient_id (sa_data a))) (Some (sd_content (sa_data a)))) s)
        as He.
      destruct (create_message parse_uuid _ s) as [[m | e] s1].
      - destruct He as [-> _]; simpl; split; [reflexivity | exists [m]; reflexivity].
      - subst s1; destruct e; simpl;
          split; try reflexivity; exists []; rewrite app_nil_r; reflexivity. }
    destruct (ws_iteration parse_uuid cid ev s) as [[out go_on] s1].
    destruct Hit as [Hc [added Hm]].
    destruct go_on; [| split; [exact Hc | exists added; exact Hm]].
    specialize (IH s1).
    destruct (ws_loop parse_uuid cid rest s1) as [[out' st] s2].
    destruct IH as [Hc' [added' Hm']].
    split; [congruence | exists (added ++ added')%list; rewrite Hm', Hm, app_assoc; reflexivity].
Qed.

(** ** Further properties of the message endpoints and schemas *)

(** When several stored messages share an identity, [scalar_one_or_none]
    raises [MultipleResultsFound]; [get_message_by_id] turns it into 500
    "Unexpected server error!", and so does [update_message] with a valid
    status; the store is kept. *)
Theorem message_lookup_duplicate_ids (mid v : string) (st : MessageStatus) (s : db) :
  2 <= length (message_rows s mid) ->
  MessageStatus_of_value v = Some st ->
  get_message_by_id mid s = (Raise (HTTPException 500 "Unexpected server error!"), s) /\
  update_message mid (Some v) s = (Raise (HTTPException 500 "Unexpected server error!"), s).
Proof.
  intros Hlen Hv.
  assert (Hget : get_message_by_id mid s =
                 (Raise (HTTPException 500 "Unexpected server error!"), s)).
  { unfold message_rows in Hlen.
    unfold get_message_by_id, try_except, bind, select_messages.
    destruct (filter (fun m => String.eqb (m_id m) mid) (messages s)) as [| a [| b l]];
      simpl in Hlen; [lia | lia | reflexivity]. }
  split; [exact Hget |].
  assert (Ht : truthy (Some v) = true)
    by (apply MessageStatus_of_value_spec in Hv; subst v; destruct st; reflexivity).
  unfold update_message; rewrite Ht.
  change (match Some v with Some v0 => v0 | None => "" end) with v.
  rewrite Hv; cbv beta iota delta [negb].
  unfold try_except at 1, bind at 1; rewrite Hget; reflexivity.
Qed.

Lemma message_lookup_duplicate_ids_witness :
  get_message_by_id "msg-1" (mkDb [conv_ab] [msg_read; msg_read] 2 3%Z) =
  (Raise (HTTPException 500 "Unexpected server error!"), mkDb [conv_ab] [msg_read; msg_read] 2 3%Z) /\
  update_message "msg-1" (Some "SENT") (mkDb [conv_ab] [msg_read; msg_read] 2 3%Z) =
  (Raise (HTTPException 500 "Unexpected server error!"), mkDb [conv_ab] [msg_read; msg_read] 2 3%Z).
Proof.
  apply (message_lookup_duplicate_ids "msg-1" "SENT" SENT); [simpl; lia | reflexivity].
Defined.

(** [DELETE /messages/{message_id}] answers by the number of stored rows
    with that identity: none gives 404 "Message not found" and keeps the
    store, one gives the success message and removes the row, more give
    500 and keep the store. *)
Theorem delete_message_endpoint_cases (mid : string) (s : db) :
  delete_message_endpoint mid s =
  match message_rows s mid with
  | [] => (Raise (HTTPException 404 "Message not found"), s)
  | [_] => (Ok "Message deleted successfully.",
            mkDb (conversations s) (filter (fun x => negb (String.eqb (m_id x) mid)) (messages s))
                 (db_seq s) (db_clock s))
  | _ => (Raise (HTTPException 500 "Unexpected server error!"), s)
  end.
Proof.
  destruct (message_rows s mid) as [| a [| b l]] eqn:E.
  - unfold delete_message_endpoint, delete_message, try_except, bind.
    rewrite (proj1 (get_message_by_id_lookup mid s) E); reflexivity.
  - pose proof (message_rows_id s mid a E) as Hid.
    unfold delete_message_endpoint, delete_message, try_except, bind.
    rewrite (proj2 (proj1 (proj2 (get_message_by_id_lookup mid s)) a) E).
    unfold delete_message_row, ret; rewrite Hid; reflexivity.
  - unfold message_rows in E.
    unfold delete_message_endpoint, delete_message, get_message_by_id, try_except, bind,
      select_messages.
    rewrite E; reflexivity.
Qed.

(** The REST endpoint always hands [create_message] a recipient; an empty
    one is read as no recipient, so the recipient membership check is
    skipped. *)
Theorem create_message_endpoint_empty_recipient (parse_uuid : string -> option uuid)
    (cid sid body : string) (s : db) :
  create_message_endpoint parse_uuid cid sid "" body s =
  create_message parse_uuid (mk_msg_data (Some cid) (Some sid) None (Some body)) s.
Proof. reflexivity. Qed.

(** [MessageStatus(v)] inverts the member values: each member is found from
    its value and [v] is accepted only as one of "SENT", "DELIVIRED",
    "READ".  The member name "DELIVERED", the example of the PUT endpoint's
    documentation, is rejected there with 400 "Invalid status value". *)
Theorem MessageStatus_value_roundtrip :
  (forall st, MessageStatus_of_value (MessageStatus_value st) = Some st) /\
  (forall v, MessageStatus_of_value v = None <->
             v <> "SENT" /\ v <> "DELIVIRED" /\ v <> "READ") /\
  (forall mid s, update_message_endpoint mid "DELIVERED" s =
                 (Raise (HTTPException 400 "Invalid status value"), s)).
Proof.
  split; [| split].
  - intros st; apply MessageStatus_of_value_spec; reflexivity.
  - intros v; split.
    + intros Hn; repeat split; intros ->; discriminate Hn.
    + intros (H1 & H2 & H3).
      destruct (MessageStatus_of_value v) as [st |] eqn:E; [| reflexivity].
      apply MessageStatus_of_value_spec in E; destruct st; simpl in E; congruence.
  - intros mid s; reflexivity.
Qed.

Lemma json_get_cons_other (k k' : string) (v : json) (fields : list (string * json)) :
  k <> k' -> json_get k' ((k, v) :: fields) = json_get k' fields.
Proof.
  intros Hk; unfold json_get; cbn [fold_left fst snd].
  rewrite (eqb_false_of_neq _ _ Hk); reflexivity.
Qed.

(** The action schema ignores keys other than "action" and "data": adding
    one to a frame does not change what [SendMessageAction( **raw_data)]
    accepts or builds. *)
Theorem validate_SendMessageAction_extra_key (k : string) (v : json)
    (fields : list (string * json)) :
  k <> "action" -> k <> "data" ->
  validate_SendMessageAction ((k, v) :: fields) = validate_SendMessageAction fields.
Proof.
  intros Ha Hd; unfold validate_SendMessageAction, str_field.
  rewrite (json_get_cons_other _ _ _ _ Ha), (json_get_cons_other _ _ _ _ Hd); reflexivity.
Qed.

Lemma validate_SendMessageAction_extra_key_witness :
  validate_SendMessageAction (("request_id", JNum 7) :: [("action", JStr "send_message");
     ("data", JObj [("sender_id", JStr user_a); ("recipient_id", JStr user_b);
                    ("content", JStr "hi")])]) =
  validate_SendMessageAction [("action", JStr "send_message");
     ("data", JObj [("sender_id", JStr user_a); ("recipient_id", JStr user_b);
                    ("content", JStr "hi")])].
Proof. apply validate_SendMessageAction_extra_key; intros H; discriminate H. Defined.
